(** * StardewValleyModUpdater.py: a shallow embedding and its properties

    The script reads a manifest, wipes the managed mods directory, and
    installs every mod of the manifest from a zip archive, found either
    through the latest GitHub release of a repository or at a fixed URL.

    The program is effectful: it prints, talks to the network and writes
    to the file system.  It is embedded as state-passing functions in a
    small state-and-exception monad [M].  The outside world (manifest
    file, HTTP servers, what extracting an archive does to the disk) is
    a record of oracles; what the program does to the outside world is
    recorded in the state: the managed directory and a chronological
    trace of the calls it makes. *)

From Stdlib Require Import ZArith.
From stdpp Require Import base option list strings gmap.

(** ** Strings: the two [str] methods the script uses *)

(** [s.startswith(p)] *)
Fixpoint startswith (s p : string) {struct p} : bool :=
  match p, s with
  | EmptyString, _ => true
  | String a p', String b s' => if Ascii.eqb a b then startswith s' p' else false
  | String _ _, EmptyString => false
  end.

Fixpoint string_drop (n : nat) (s : string) : string :=
  match n, s with
  | S n', String _ s' => string_drop n' s'
  | _, _ => s
  end.

(** [s.endswith(p)]: the last [len(p)] characters of [s] are compared
    with [p]; a suffix longer than the string never matches. *)
Definition endswith (s p : string) : bool :=
  if String.length p <=? String.length s
  then String.eqb (string_drop (String.length s - String.length p) s) p
  else false.

(** [sep.join(l)] *)
Fixpoint join (sep : string) (l : list string) : string :=
  match l with
  | [] => EmptyString
  | [x] => x
  | x :: l' => x +:+ sep +:+ join sep l'
  end.

(** ** Python values

    What [yaml.safe_load] and [json.loads] return.  A number keeps the
    text [str()] gives it: the script never computes with numbers, it at
    most interpolates them.  A [dict] keeps its insertion order, which is
    the order of iteration; a key is a value too: JSON has string keys
    only, but YAML also reads numbers, booleans and null as keys.  The
    other scalars YAML reads (a date) are used by the script as a number
    is, and stand here as [PNum] with their text. *)
#[warnings="-register-all"]
Inductive pyval : Type :=
| PNone
| PBool (b : bool)
| PNum (text : string)
| PStr (s : string)
| PList (items : list pyval)
| PDict (entries : list (pyval * pyval)).

(** The exceptions that can occur.  [HTTPError] is the one class the
    script names in its [except] clauses; [URLError] is its superclass,
    raised for transport failures (no route, refused connection, DNS). *)
Inductive exn : Type :=
| HTTPError (code : Z)
| URLError
| FileNotFoundError
| YAMLError
| JSONDecodeError
| KeyError (key : string)
| TypeError
| AttributeError
| BadZipFile
| OtherError (cls : string).

(** [isinstance(e, urllib.error.HTTPError)] *)
Definition is_HTTPError (e : exn) : bool :=
  match e with HTTPError _ => true | _ => false end.

(** ** The outside world *)

(** The bytes a download leaves on disk, as [zipfile.ZipFile] sees
    them: something it cannot open, or an archive. *)
Inductive zipbytes : Type :=
| NotAZip
| Zip (archive : string).

Inductive manifest_file : Type :=
| ManifestAbsent
| ManifestMalformed
| ManifestDoc (doc : pyval).

(** The answer to a GET whose body the script parses as JSON. *)
Inductive response : Type :=
| RespRaise (e : exn)
| RespNotJSON
| RespJSON (doc : pyval).

(** The outcome of a GET whose body the script stores in a file: the
    exception the call raised (an HTTP status, a transport failure, a
    failure to write the file), or the bytes it left in the file. *)
Inductive download : Type :=
| DownRaise (e : exn)
| DownBody (z : zipbytes).

(** Network answers may change while the script runs: they depend on
    the number of requests made so far as well as on the URL.

    What extracting an archive does to the managed directory is the zip
    library's and the file system's business (member names are
    normalised, directories are created, a member that fails may leave a
    truncated file, the mod name is joined onto the path): the world
    tells, for an archive, the mod name it is extracted under and the
    managed directory as it is, what the directory is afterwards and the
    exception the extraction raised, if any. *)
Record World : Type := {
  manifest : manifest_file;
  urlopen : nat -> string -> response;
  urlretrieve : nat -> string -> download;
  zip_extractall :
    nat -> string -> string -> option (gmap (string * string) string) ->
    option (gmap (string * string) string) * option exn
}.

(** ** What the program does *)

Inductive event : Type :=
| EvPrint (line : string)
| EvUrlOpen (url : string)
| EvUrlRetrieve (url : pyval)
| EvZipOpen (modName : string)
| EvExtractAll (modName : string) (archive : string)
| EvRmTree
| EvMakeDirs.

(** The managed directory [MODS_DIR]: [None] when it does not exist,
    else its files, keyed by the name of the entry directly under
    [MODS_DIR] and the path below that entry (empty for a file that lies
    directly under [MODS_DIR]).  Which keys an extraction writes is for
    the world to say: the program joins the mod name onto the path
    unchecked. *)
Record State : Type := {
  clock : nat;
  mods_dir : option (gmap (string * string) string);
  trace : list event
}.

Inductive outcome (A : Type) : Type :=
| Ok (a : A)
| Raise (e : exn).
Arguments Ok {A} a.
Arguments Raise {A} e.

Definition M (A : Type) : Type := State -> outcome A * State.

Definition ret {A} (a : A) : M A := fun st => (Ok a, st).

Definition raise {A} (e : exn) : M A := fun st => (Raise e, st).

Definition bind {A B} (m : M A) (k : A -> M B) : M B :=
  fun st =>
    match m st with
    | (Ok a, st') => k a st'
    | (Raise e, st') => (Raise e, st')
    end.

Declare Scope m_scope.
Delimit Scope m_scope with M.
Notation "'do' x <- m ; k" := (bind m (fun x => k))
  (at level 60, m at next level, right associativity) : m_scope.
Notation "'do' m ; k" := (bind m (fun _ => k))
  (at level 60, right associativity) : m_scope.
Open Scope m_scope.

(** [try: body except C: handler], where [handles e] tells whether [e]
    is an instance of [C]; any other exception goes on to the caller. *)
Definition try_except {A} (body : M A) (handles : exn -> bool) (handler : exn -> M A) : M A :=
  fun st =>
    match body st with
    | (Ok a, st') => (Ok a, st')
    | (Raise e, st') => if handles e then handler e st' else (Raise e, st')
    end.

Definition emit (e : event) : M unit :=
  fun st => (Ok tt, {| clock := clock st; mods_dir := mods_dir st; trace := trace st ++ [e] |}).

Definition tick : M nat :=
  fun st => (Ok (clock st), {| clock := S (clock st); mods_dir := mods_dir st; trace := trace st |}).

Definition get_clock : M nat :=
  fun st => (Ok (clock st), st).

Definition get_mods_dir : M (option (gmap (string * string) string)) :=
  fun st => (Ok (mods_dir st), st).

Definition set_mods_dir (d : option (gmap (string * string) string)) : M unit :=
  fun st => (Ok tt, {| clock := clock st; mods_dir := d; trace := trace st |}).

(** [for x in l: body x] *)
Fixpoint for_each {A} (l : list A) (body : A -> M unit) : M unit :=
  match l with
  | [] => ret tt
  | x :: l' => do body x; for_each l' body
  end.

(** ** Python operations on values *)

(** [d[k]] when [d] is a dict and [k] a string: the value stored under
    the key that equals [k]; only a [str] key equals a string. *)
Fixpoint dict_get (entries : list (pyval * pyval)) (k : string) : option pyval :=
  match entries with
  | [] => None
  | (PStr k', v) :: rest => if String.eqb k' k then Some v else dict_get rest k
  | _ :: rest => dict_get rest k
  end.

(** [v[k]] for a string [k]: a dict looks the key up and raises
    [KeyError] when it is missing; lists and strings take integer
    indices only; nothing else can be subscripted. *)
Definition getitem (v : pyval) (k : string) : M pyval :=
  match v with
  | PDict entries =>
      match dict_get entries k with
      | Some x => ret x
      | None => raise (KeyError k)
      end
  | _ => raise TypeError
  end.

(** [list(v.keys())]: only a dict has the method. *)
Definition keys (v : pyval) : M (list pyval) :=
  match v with
  | PDict entries => ret (map fst entries)
  | _ => raise AttributeError
  end.

Fixpoint chars (s : string) : list pyval :=
  match s with
  | EmptyString => []
  | String c s' => PStr (String c EmptyString) :: chars s'
  end.

(** [for x in v]: the items of a list, the keys of a dict, the
    characters of a string; nothing else is iterable. *)
Definition iterate (v : pyval) : M (list pyval) :=
  match v with
  | PList items => ret items
  | PDict entries => ret (map fst entries)
  | PStr s => ret (chars s)
  | _ => raise TypeError
  end.

(** [v is None] *)
Definition is_None (v : pyval) : bool :=
  match v with PNone => true | _ => false end.

(** The strings of a list all of whose items are [str]. *)
Fixpoint str_items (l : list pyval) : option (list string) :=
  match l with
  | [] => Some []
  | PStr s :: l' =>
      match str_items l' with
      | Some names => Some (s :: names)
      | None => None
      end
  | _ :: _ => None
  end.

(** [sep.join(l)] for a list of values: an item that is not a [str]
    raises [TypeError]. *)
Definition join_values (sep : string) (l : list pyval) : M string :=
  match str_items l with
  | Some names => ret (join sep names)
  | None => raise TypeError
  end.

(** ** The script *)

(** [name == f"{modName}.zip"] *)
Definition isExactAssetName (modName name : string) : bool :=
  String.eqb name (modName +:+ ".zip").

(** [name.startswith(f"{modName}.") and name.endswith(".zip")] *)
Definition isAssetNameWithVersion (modName name : string) : bool :=
  startswith name (modName +:+ ".") && endswith name ".zip".

(** The two flags of the loop body for an asset name of any type: a
    value that is not a [str] is unequal to the expected name and then
    has no [startswith] method. *)
Definition asset_name_flags (modName : string) (name : pyval) : M (bool * bool) :=
  match name with
  | PStr s => ret (isExactAssetName modName s, isAssetNameWithVersion modName s)
  | _ => raise AttributeError
  end.

Section Script.

Variable w : World.

(** [str(v)] for a list or a dict [v], left to Python. *)
Variable repr : pyval -> string.

(** [f"{v}"] *)
Definition py_str (v : pyval) : string :=
  match v with
  | PNone => "None"
  | PBool true => "True"
  | PBool false => "False"
  | PNum text => text
  | PStr s => s
  | _ => repr v
  end.

Definition print (line : string) : M unit := emit (EvPrint line).

Definition loadConfig : M pyval :=
  match manifest w with
  | ManifestAbsent => raise FileNotFoundError
  | ManifestMalformed => raise YAMLError
  | ManifestDoc doc => ret doc
  end.

Definition log (modName str : string) : M unit :=
  print ("[" +:+ modName +:+ "]: " +:+ str).

(** [urllib.request.urlretrieve(zipUrl, downloadedZip)]: the content
    of the file it leaves.  A URL that is not a string is refused
    before any request is made. *)
Definition call_urlretrieve (zipUrl : pyval) : M zipbytes :=
  do emit (EvUrlRetrieve zipUrl);
  match zipUrl with
  | PStr url =>
      do t <- tick;
      match urlretrieve w t url with
      | DownRaise e => raise e
      | DownBody z => ret z
      end
  | _ => raise TypeError
  end.

(** [zipFile.extractall(os.path.join(MODS_DIR, modName))]: the managed
    directory becomes what the world says, and the extraction raises
    what the world says. *)
Definition extractall (modName archive : string) : M unit :=
  do t <- get_clock;
  do d <- get_mods_dir;
  let after := zip_extractall w t archive modName d in
  do set_mods_dir (fst after);
  match snd after with
  | Some e => raise e
  | None => ret tt
  end.

(** The body of the second [try] of [installFromZipUrl]; [file] is
    what is at the path [downloadedZip], if anything. *)
Definition extract_zip (modName : string) (file : option zipbytes) : M unit :=
  do emit (EvZipOpen modName);
  match file with
  | None => raise FileNotFoundError
  | Some NotAZip => raise BadZipFile
  | Some (Zip archive) =>
      do emit (EvExtractAll modName archive);
      extractall modName archive
  end.

Definition installFromZipUrl (modName : string) (zipUrl : pyval) : M unit :=
  do log modName "Downloading mod...";
  (* the temporary directory is new: nothing is at [downloadedZip] yet *)
  do file <- try_except
               (do z <- call_urlretrieve zipUrl; ret (Some z))
               is_HTTPError
               (fun _ => do log modName "Unable to download mod zip"; ret None);
  do extracted <- try_except
                    (do extract_zip modName file; ret true)
                    (fun _ => true)
                    (fun _ => do log modName "Unable to extract mod zip"; ret false);
  if extracted then log modName "Installation complete." else ret tt.

(** [json.loads(urlopen(releaseUrl).read().decode())] *)
Definition call_urlopen (releaseUrl : string) : M pyval :=
  do emit (EvUrlOpen releaseUrl);
  do t <- tick;
  match urlopen w t releaseUrl with
  | RespRaise e => raise e
  | RespNotJSON => raise JSONDecodeError
  | RespJSON doc => ret doc
  end.

(** The loop over [releases["assets"]], from the current [assetUrl]. *)
Fixpoint scan_assets (modName : string) (assets : list pyval) (assetUrl : pyval) : M pyval :=
  match assets with
  | [] => ret assetUrl
  | asset :: rest =>
      do name <- getitem asset "name";
      do flags <- asset_name_flags modName name;
      do assetUrl' <- (if fst flags || snd flags
                       then getitem asset "browser_download_url"
                       else ret assetUrl);
      scan_assets modName rest assetUrl'
  end.

(** [f"https://api.github.com/repos/{modRepo}/releases/latest"] *)
Definition releaseUrl (modRepo : pyval) : string :=
  "https://api.github.com/repos/" +:+ py_str modRepo +:+ "/releases/latest".

Definition installLatestGitHubRelease (modName : string) (modRepo : pyval) : M unit :=
  do releases <- try_except
                   (do r <- call_urlopen (releaseUrl modRepo); ret (Some r))
                   is_HTTPError
                   (fun error =>
                      do (match error with
                          | HTTPError 404 => log modName "Repo is no longer hosting releases."
                          | _ => log modName "Unable to reach GitHub"
                          end);
                      ret None);
  match releases with
  | None => ret tt
  | Some releases =>
      do assets <- getitem releases "assets";
      do items <- iterate assets;
      do assetUrl <- scan_assets modName items PNone;
      if is_None assetUrl
      then log modName "Assets do not contain expected zip file."
      else installFromZipUrl modName assetUrl
  end.

(** Lines 99 to 102: clean out the mods directory. *)
Definition reset_mods_dir : M unit :=
  do d <- get_mods_dir;
  do (match d with
      | Some _ => do emit EvRmTree; set_mods_dir None
      | None => ret tt
      end);
  do emit EvMakeDirs;
  set_mods_dir (Some ∅).

(** The body of the first loop.  [modName] is a key of the mapping,
    and [main] gets here only after [join] has taken every key of both
    mappings (line 97): it is a [str]. *)
Definition release_loop_body (config modName : pyval) : M unit :=
  match modName with
  | PStr name =>
      do mods <- getitem config "githubReleaseMods";
      do modRepo <- getitem mods name;
      installLatestGitHubRelease name modRepo
  | _ => raise TypeError
  end.

(** The body of the second loop, likewise. *)
Definition mirror_loop_body (config modName : pyval) : M unit :=
  match modName with
  | PStr name =>
      do mods <- getitem config "mirrorMods";
      do modUrl <- getitem mods name;
      installFromZipUrl name modUrl
  | _ => raise TypeError
  end.

(** Lines 104 to 112: the two loops. *)
Definition install_mods (config : pyval) : M unit :=
  do releaseMods <- getitem config "githubReleaseMods";
  do names <- iterate releaseMods;
  do for_each names (release_loop_body config);
  do mirrorMods <- getitem config "mirrorMods";
  do names <- iterate mirrorMods;
  for_each names (mirror_loop_body config).

Definition main : M unit :=
  do config <- loadConfig;
  do releaseMods <- getitem config "githubReleaseMods";
  do releaseNames <- keys releaseMods;
  do mirrorMods <- getitem config "mirrorMods";
  do mirrorNames <- keys mirrorMods;
  let completeModList := releaseNames ++ mirrorNames in
  do names <- join_values ", " completeModList;
  do print ("Detecting the following mods: " +:+ " " +:+ names);
  do reset_mods_dir;
  install_mods config.

(** The process: [main()] from a fresh start, with whatever is in the
    managed directory; an uncaught exception ends it with status 1. *)
Definition start (d : option (gmap (string * string) string)) : State :=
  {| clock := 0; mods_dir := d; trace := [] |}.

Definition exit_status (d : option (gmap (string * string) string)) : Z :=
  match main (start d) with
  | (Ok _, _) => 0
  | (Raise _, _) => 1
  end.

End Script.
(** ** Vocabulary of the properties *)

(** The naming rule for release assets, as the specification words it:
    the name is "<modName>.zip", or it starts with "<modName>." and ends
    with ".zip". *)
Definition exact_name (modName name : string) : Prop :=
  name = modName +:+ ".zip".

Definition versioned_name (modName name : string) : Prop :=
  (exists rest, name = (modName +:+ ".") +:+ rest) /\ (exists front, name = front +:+ ".zip").

Definition name_matches (modName name : string) : Prop :=
  exact_name modName name \/ versioned_name modName name.

(** A release asset of the documented shape: an object with a string
    under "name" and a string under "browser_download_url". *)
Definition asset_name_url (asset : pyval) : option (string * string) :=
  match asset with
  | PDict entries =>
      match dict_get entries "name", dict_get entries "browser_download_url" with
      | Some (PStr name), Some (PStr url) => Some (name, url)
      | _, _ => None
      end
  | _ => None
  end.

(** The name of an asset, when it is an object with a string name. *)
Definition asset_name (asset : pyval) : option string :=
  match asset with
  | PDict entries =>
      match dict_get entries "name" with
      | Some (PStr name) => Some name
      | _ => None
      end
  | _ => None
  end.

(** The asset URL the loop holds after the assets [recs], given as
    (name, url) pairs, when it held [cur] before. *)
Definition scan_result (modName : string) (recs : list (string * string)) (cur : pyval) : pyval :=
  fold_left
    (fun acc r =>
       if isExactAssetName modName r.1 || isAssetNameWithVersion modName r.1
       then PStr r.2 else acc)
    recs cur.




Definition log_line (modName str : string) : string :=
  "[" +:+ modName +:+ "]: " +:+ str.


(** The state after [events] were added to the trace and [n] requests
    were made. *)
Definition advance (st : State) (n : nat) (events : list event) : State :=
  {| clock := n + clock st; mods_dir := mods_dir st; trace := trace st ++ events |}.

(** The manifest cannot be used: the file is absent, it does not parse,
    or what it parses to has no "githubReleaseMods" or no "mirrorMods"
    entry (a document that is not a mapping has neither). *)
Definition lacks_key (doc : pyval) (k : string) : Prop :=
  match doc with
  | PDict entries => dict_get entries k = None
  | _ => True
  end.

Definition manifest_unusable (mf : manifest_file) : Prop :=
  match mf with
  | ManifestAbsent | ManifestMalformed => True
  | ManifestDoc doc => lacks_key doc "githubReleaseMods" \/ lacks_key doc "mirrorMods"
  end.

(** A release query that was answered, but not with what the resolver
    reads: the body is not JSON, or the document has nothing under
    "assets", or one of the listed assets has nothing under "name". *)
Definition bad_release (r : response) : Prop :=
  match r with
  | RespRaise _ => False
  | RespNotJSON => True
  | RespJSON doc =>
      lacks_key doc "assets"
      \/ exists entries assets,
           doc = PDict entries
           /\ dict_get entries "assets" = Some (PList assets)
           /\ exists a, a ∈ assets /\ lacks_key a "name"
  end.

(** The manifest as [main] needs it to get past its first lines: a
    mapping that holds a mapping under each of the two keys. *)
Definition manifest_mappings (mf : manifest_file)
  : option (pyval * list (pyval * pyval) * list (pyval * pyval)) :=
  match mf with
  | ManifestDoc (PDict config) =>
      match dict_get config "githubReleaseMods", dict_get config "mirrorMods" with
      | Some (PDict releaseMods), Some (PDict mirrorMods) =>
          Some (PDict config, releaseMods, mirrorMods)
      | _, _ => None
      end
  | _ => None
  end.




(** The manifest with which [main] gets as far as the reset: both
    mappings are there and every key of both is a string.  With it come
    the mod names of the first and of the second mapping. *)
Definition usable_manifest (mf : manifest_file)
  : option (pyval * list string * list string) :=
  match manifest_mappings mf with
  | Some (config, releaseMods, mirrorMods) =>
      match str_items (map fst releaseMods), str_items (map fst mirrorMods) with
      | Some releaseNames, Some mirrorNames => Some (config, releaseNames, mirrorNames)
      | _, _ => None
      end
  | None => None
  end.

(** The line [main] prints first. *)
Definition detect_line (releaseNames mirrorNames : list string) : string :=
  "Detecting the following mods: " +:+ " "
  +:+ join ", " (releaseNames ++ mirrorNames).

(** The state in which the first install starts when [main] was
    entered in [st]: the line is printed, the managed directory was
    removed if it existed, and it was created anew. *)
Definition after_reset (st : State) (line : string) : State :=
  {| clock := clock st;
     mods_dir := Some ∅;
     trace := trace st
              ++ EvPrint line
                 :: match mods_dir st with Some _ => [EvRmTree] | None => [] end
              ++ [EvMakeDirs] |}.

(** A computation without effect. *)
Definition pure {A} (c : M A) : Prop :=
  forall st, exists r, c st = (r, st).


(** ** Sample worlds

    Concrete manifests, servers and archives on which the properties
    below are exercised. *)

(** The sample manifests hold strings only: the rendering of lists and
    dicts is never asked for. *)
Definition no_repr (v : pyval) : string := EmptyString.

(** An entry of a mapping under a string key. *)
Definition item (key : string) (value : pyval) : pyval * pyval := (PStr key, value).

(** An extraction that writes nothing and raises nothing: that of a
    zip archive without members into a directory that exists. *)
Definition extracts_nothing (t : nat) (archive modName : string)
  (d : option (gmap (string * string) string))
  : option (gmap (string * string) string) * option exn :=
  (d, None).

(** An extraction that puts each of the listed files, given by name
    and data, into the directory of the mod. *)
Definition extracts_files (listed : list (string * string)) (t : nat)
  (archive modName : string) (d : option (gmap (string * string) string))
  : option (gmap (string * string) string) * option exn :=
  (Some (fold_left (fun m f => <[(modName, f.1) := f.2]> m) listed (default ∅ d)), None).

(** An extraction that puts the listed files in place and then fails
    on a member of the archive. *)
Definition extracts_then_fails (listed : list (string * string)) (t : nat)
  (archive modName : string) (d : option (gmap (string * string) string))
  : option (gmap (string * string) string) * option exn :=
  (Some (fold_left (fun m f => <[(modName, f.1) := f.2]> m) listed (default ∅ d)),
   Some BadZipFile).

(** Every download is answered with HTTP status 500. *)
Definition world_download_500 : World :=
  {| manifest := ManifestAbsent;
     urlopen := fun _ _ => RespRaise (HTTPError 500);
     urlretrieve := fun _ _ => DownRaise (HTTPError 500);
     zip_extractall := extracts_nothing |}.

(** No manifest file at all. *)
Definition world_no_manifest : World :=
  {| manifest := ManifestAbsent;
     urlopen := fun _ _ => RespRaise URLError;
     urlretrieve := fun _ _ => DownRaise URLError;
     zip_extractall := extracts_nothing |}.

(** A release asset as GitHub lists it (other fields left out). *)
Definition asset (name url : string) : pyval :=
  PDict [item "name" (PStr name); item "browser_download_url" (PStr url)].

(** The release of the specification's example: three assets, of which
    the first two match the mod "Foo"; only the second URL serves a
    zip archive. *)
Definition foo_assets : list pyval :=
  [ asset "Foo.zip" "https://dl/1";
    asset "Foo.2.1.0.zip" "https://dl/2";
    asset "Bar.zip" "https://dl/3" ].

Definition foo_recs : list (string * string) :=
  [ ("Foo.zip", "https://dl/1");
    ("Foo.2.1.0.zip", "https://dl/2");
    ("Bar.zip", "https://dl/3") ].

Definition world_foo : World :=
  {| manifest :=
       ManifestDoc (PDict [ item "githubReleaseMods" (PDict [item "Foo" (PStr "owner/Foo")]);
                            item "mirrorMods" (PDict []) ]);
     urlopen := fun _ _ => RespJSON (PDict [item "assets" (PList foo_assets)]);
     urlretrieve := fun _ url =>
       if String.eqb url "https://dl/2"
       then DownBody (Zip "Foo 2.1.0")
       else DownRaise (HTTPError 404);
     zip_extractall := extracts_files [("Foo.dll", "code"); ("manifest.json", "{}")] |}.

(** The release of "Foo" lists an asset that has no name. *)
Definition world_nameless_asset : World :=
  {| manifest :=
       ManifestDoc (PDict [ item "githubReleaseMods" (PDict [item "Foo" (PStr "owner/Foo")]);
                            item "mirrorMods"
                              (PDict [item "Bar" (PStr "https://mirror/Bar.zip")]) ]);
     urlopen := fun _ _ =>
       RespJSON (PDict [item "assets"
                          (PList [PDict [item "browser_download_url"
                                           (PStr "https://dl/1")]])]);
     urlretrieve := fun _ _ => DownBody (Zip "Bar");
     zip_extractall := extracts_files [("Bar.dll", "code")] |}.

(** Two mirror mods, and a network on which no host can be reached:
    every request raises [URLError]. *)
Definition world_unreachable_mirror : World :=
  {| manifest :=
       ManifestDoc (PDict [ item "githubReleaseMods" (PDict []);
                            item "mirrorMods"
                              (PDict [ item "A" (PStr "https://mirror/A.zip");
                                       item "B" (PStr "https://mirror/B.zip") ]) ]);
     urlopen := fun _ _ => RespRaise URLError;
     urlretrieve := fun _ _ => DownRaise URLError;
     zip_extractall := extracts_nothing |}.

(** Two release mods on the same network. *)
Definition world_unreachable_github : World :=
  {| manifest :=
       ManifestDoc (PDict [ item "githubReleaseMods"
                              (PDict [ item "A" (PStr "owner/A");
                                       item "B" (PStr "owner/B") ]);
                            item "mirrorMods" (PDict []) ]);
     urlopen := fun _ _ => RespRaise URLError;
     urlretrieve := fun _ _ => DownRaise URLError;
     zip_extractall := extracts_nothing |}.


(** What a previous run left in the managed directory. *)
Definition stale_dir : option (gmap (string * string) string) :=
  Some {[ ("Old", "old.dll") := "stale" ]}.


(** A manifest in which a mod name is the number 123, as YAML reads an
    unquoted key. *)
Definition world_numeric_name : World :=
  {| manifest :=
       ManifestDoc (PDict [ item "githubReleaseMods" (PDict [(PNum "123", PStr "owner/Foo")]);
                            item "mirrorMods" (PDict []) ]);
     urlopen := fun _ _ => RespRaise (HTTPError 404);
     urlretrieve := fun _ _ => DownRaise (HTTPError 404);
     zip_extractall := extracts_nothing |}.

(** ** Vocabulary of the further properties *)



(** ** Further sample worlds *)

(** The archive of the one mirror mod has a member that does not
    extract, after one that does. *)
Definition world_corrupt_member : World :=
  {| manifest :=
       ManifestDoc (PDict [ item "githubReleaseMods" (PDict []);
                            item "mirrorMods"
                              (PDict [item "Foo" (PStr "https://mirror/Foo.zip")]) ]);
     urlopen := fun _ _ => RespRaise (HTTPError 404);
     urlretrieve := fun _ _ => DownBody (Zip "bad second member");
     zip_extractall := extracts_then_fails [("Foo.dll", "code")] |}.

(** The release of "Foo" lists two matching assets; the later one has
    [null] for its download URL. *)
Definition world_null_url : World :=
  {| manifest :=
       ManifestDoc (PDict [ item "githubReleaseMods" (PDict [item "Foo" (PStr "owner/Foo")]);
                            item "mirrorMods" (PDict []) ]);
     urlopen := fun _ _ =>
       RespJSON (PDict [item "assets"
                          (PList [ asset "Foo.zip" "https://dl/1";
                                   PDict [item "name" (PStr "Foo.2.0.zip");
                                          item "browser_download_url" PNone];
                                   asset "Bar.zip" "https://dl/3" ])]);
     urlretrieve := fun _ _ => DownBody (Zip "Foo");
     zip_extractall := extracts_files [("Foo.dll", "code")] |}.

(** One release mod and one mirror mod, and servers that answer every
    request with an HTTP error status. *)
Definition world_all_refused : World :=
  {| manifest :=
       ManifestDoc (PDict [ item "githubReleaseMods" (PDict [item "Foo" (PStr "owner/Foo")]);
                            item "mirrorMods"
                              (PDict [item "Bar" (PStr "https://mirror/Bar.zip")]) ]);
     urlopen := fun _ _ => RespRaise (HTTPError 403);
     urlretrieve := fun _ _ => DownRaise (HTTPError 503);
     zip_extractall := extracts_nothing |}.

(** * Properties *)

(** ** Strings *)

Lemma app_cons (a : Ascii.ascii) (s t : string) :
  String a s +:+ t = String a (s +:+ t).
Proof. reflexivity. Qed.

Lemma app_assoc_s (s t u : string) : (s +:+ t) +:+ u = s +:+ (t +:+ u).
Proof.
  induction s as [|a s IH]; [reflexivity|].
  rewrite !app_cons. by rewrite IH.
Qed.

Lemma length_app_s (s t : string) :
  String.length (s +:+ t) = String.length s + String.length t.
Proof.
  induction s as [|a s IH]; [reflexivity|].
  rewrite app_cons. simpl. by rewrite IH.
Qed.

(** [startswith] decides having the prefix. *)
Lemma startswith_spec (s p : string) :
  startswith s p = true <-> exists r, s = p +:+ r.
Proof.
  revert s. induction p as [|a p IH]; intros s; simpl.
  - split; [intros _; exists s; reflexivity | reflexivity].
  - destruct s as [|b s].
    + split; [discriminate | intros [r Hr]; rewrite app_cons in Hr; discriminate].
    + destruct (Ascii.eqb_spec a b) as [->|Hne].
      * rewrite IH. split; intros [r Hr]; exists r.
        -- rewrite app_cons. by rewrite Hr.
        -- rewrite app_cons in Hr. by injection Hr.
      * split; [discriminate | intros [r Hr]].
        rewrite app_cons in Hr. injection Hr as Hab _. by destruct Hne.
Qed.

Lemma string_drop_app (r p : string) :
  string_drop (String.length r) (r +:+ p) = p.
Proof.
  induction r as [|a r IH]; [by destruct p|].
  rewrite app_cons. simpl. exact IH.
Qed.

Lemma string_drop_split (n : nat) (s : string) :
  n <= String.length s ->
  exists r, s = r +:+ string_drop n s /\ String.length r = n.
Proof.
  revert s. induction n as [|n IH]; intros s Hn.
  - exists EmptyString. split; [by destruct s | done].
  - destruct s as [|a s]; simpl in Hn; [lia|].
    destruct (IH s) as [r [Hr Hlen]]; [lia|].
    exists (String a r). simpl. rewrite app_cons.
    split; [by rewrite <- Hr | by rewrite Hlen].
Qed.

(** [endswith] decides having the suffix. *)
Lemma endswith_spec (s p : string) :
  endswith s p = true <-> exists r, s = r +:+ p.
Proof.
  unfold endswith. split.
  - destruct (Nat.leb_spec (String.length p) (String.length s)) as [Hle|]; [|done].
    intros Heq%String.eqb_eq.
    destruct (string_drop_split (String.length s - String.length p) s) as [r [Hr _]]; [lia|].
    exists r. by rewrite Heq in Hr.
  - intros [r ->]. rewrite length_app_s.
    destruct (Nat.leb_spec (String.length p) (String.length r + String.length p)); [|lia].
    replace (String.length r + String.length p - String.length p) with (String.length r) by lia.
    rewrite string_drop_app. apply String.eqb_refl.
Qed.

(** ** The naming rule *)

Lemma isExactAssetName_spec (modName name : string) :
  isExactAssetName modName name = true <-> exact_name modName name.
Proof. unfold isExactAssetName, exact_name. apply String.eqb_eq. Qed.

Lemma isAssetNameWithVersion_spec (modName name : string) :
  isAssetNameWithVersion modName name = true <-> versioned_name modName name.
Proof.
  unfold isAssetNameWithVersion, versioned_name.
  rewrite andb_true_iff, startswith_spec, endswith_spec. reflexivity.
Qed.

Lemma exact_name_versioned (modName name : string) :
  exact_name modName name -> versioned_name modName name.
Proof.
  unfold exact_name. intros ->. split.
  - exists "zip". rewrite app_assoc_s. reflexivity.
  - exists modName. reflexivity.
Qed.

(** The test of the loop body decides the naming rule. *)
Lemma flags_spec (modName name : string) :
  isExactAssetName modName name || isAssetNameWithVersion modName name = true
  <-> name_matches modName name.
Proof.
  unfold name_matches.
  rewrite orb_true_iff, isExactAssetName_spec, isAssetNameWithVersion_spec.
  reflexivity.
Qed.

Lemma flags_false (modName name : string) :
  ~ name_matches modName name ->
  isExactAssetName modName name || isAssetNameWithVersion modName name = false.
Proof.
  intros Hno. apply not_true_is_false. by rewrite flags_spec.
Qed.

Example versioned_name_matches :
  isExactAssetName "Foo" "Foo.2.1.0.zip" = false
  /\ isAssetNameWithVersion "Foo" "Foo.2.1.0.zip" = true.
Proof. split; reflexivity. Qed.

Example other_mod_does_not_match :
  isExactAssetName "Foo" "Bar.zip" || isAssetNameWithVersion "Foo" "Bar.zip" = false.
Proof. reflexivity. Qed.

(** The dot counts: "FooBar.zip" is not an asset of "Foo". *)
Example longer_mod_name_does_not_match :
  isExactAssetName "Foo" "FooBar.zip" || isAssetNameWithVersion "Foo" "FooBar.zip" = false.
Proof. reflexivity. Qed.

(** A suffix longer than the name is no suffix of it. *)
Example short_name_does_not_end_with_zip : endswith "zip" ".zip" = false.
Proof. reflexivity. Qed.

(** C9: in the asset matching of the Release Resolver, the exact-name
    condition implies the versioned-name condition for every mod name and
    asset name, so the disjunction of the two that selects an asset has
    the same value as the versioned-name condition alone; the same holds
    for the two conditions as the specification words them. *)
Theorem exact_condition_is_redundant (modName name : string) :
  (isExactAssetName modName name = true -> isAssetNameWithVersion modName name = true)
  /\ isExactAssetName modName name || isAssetNameWithVersion modName name
     = isAssetNameWithVersion modName name
  /\ (name_matches modName name <-> versioned_name modName name).
Proof.
  assert (Himp : isExactAssetName modName name = true ->
                 isAssetNameWithVersion modName name = true).
  { rewrite isExactAssetName_spec, isAssetNameWithVersion_spec.
    apply exact_name_versioned. }
  split; [exact Himp|]. split.
  - destruct (isExactAssetName modName name); [|reflexivity].
    simpl. symmetry. by apply Himp.
  - unfold name_matches. split; [|by right].
    intros [Hex|Hv]; [by apply exact_name_versioned | done].
Qed.

(** ** The Archive Installer *)

Ltac run_script :=
  unfold installLatestGitHubRelease, installFromZipUrl, extract_zip,
    call_urlretrieve, call_urlopen, log, print, try_except, bind, ret, raise,
    emit, tick, advance; simpl.

(** C4: when the download of the zip fails with an HTTP error, the
    installer logs the download failure and still goes on to open the
    (absent) downloaded file for extraction; that fails and is logged in
    turn, and the installer returns normally. *)
Theorem download_http_error_falls_through
  (w : World) (modName url : string) (code : Z) (st : State) :
  urlretrieve w (clock st) url = DownRaise (HTTPError code) ->
  installFromZipUrl w modName (PStr url) st
  = (Ok tt,
     advance st 1
       [ EvPrint (log_line modName "Downloading mod...");
         EvUrlRetrieve (PStr url);
         EvPrint (log_line modName "Unable to download mod zip");
         EvZipOpen modName;
         EvPrint (log_line modName "Unable to extract mod zip") ]).
Proof.
  intros Hdown. run_script. rewrite Hdown. simpl.
  rewrite <- !app_assoc. reflexivity.
Qed.

(** The run of the installer against a server that answers 500. *)
Lemma download_http_error_falls_through_witness :
  urlretrieve world_download_500 0 "http://mirror/Foo.zip" = DownRaise (HTTPError 500)
  /\ installFromZipUrl world_download_500 "Foo" (PStr "http://mirror/Foo.zip") (start None)
     = (Ok tt,
        advance (start None) 1
          [ EvPrint "[Foo]: Downloading mod...";
            EvUrlRetrieve (PStr "http://mirror/Foo.zip");
            EvPrint "[Foo]: Unable to download mod zip";
            EvZipOpen "Foo";
            EvPrint "[Foo]: Unable to extract mod zip" ]).
Proof.
  split; [reflexivity|].
  apply (download_http_error_falls_through world_download_500 "Foo" "http://mirror/Foo.zip" 500).
  reflexivity.
Defined.

(** ** The Sync Orchestrator: the manifest *)

(** C7: if the manifest file is absent, does not parse, or lacks the
    key githubReleaseMods or the key mirrorMods, [main] raises an exception
    before it has printed, reset or installed anything (the state is
    untouched), and the process ends with a non-zero status. *)
Theorem unusable_manifest_is_fatal
  (w : World) (repr : pyval -> string) (st : State)
  (d : option (gmap (string * string) string)) :
  manifest_unusable (manifest w) ->
  (exists e, main w repr st = (Raise e, st)) /\ exit_status w repr d <> 0%Z.
Proof.
  intros Hbad.
  assert (Hmain : forall st0, exists e, main w repr st0 = (Raise e, st0)).
  { intros st0. unfold main, loadConfig, bind. unfold manifest_unusable in Hbad.
    destruct (manifest w) as [| |doc]; [by eexists | by eexists |].
    destruct doc as [| | | | |entries]; try by eexists.
    simpl in Hbad. simpl.
    destruct (dict_get entries "githubReleaseMods") as [releaseMods|] eqn:Hrel;
      [|by eexists].
    destruct Hbad as [Hbad|Hbad]; [done|]. rewrite Hbad. 
    destruct releaseMods; by eexists. }
  split; [apply Hmain|].
  unfold exit_status. destruct (Hmain (start d)) as [e ->]. done.
Qed.

(** A run without a manifest file. *)
Lemma unusable_manifest_is_fatal_witness :
  manifest_unusable (manifest world_no_manifest)
  /\ (exists e, main world_no_manifest no_repr (start None)
                = (Raise e, start None))
  /\ exit_status world_no_manifest no_repr None <> 0%Z.
Proof.
  split; [exact I|].
  apply (unusable_manifest_is_fatal world_no_manifest no_repr (start None) None).
  exact I.
Defined.

(** ** The Release Resolver: asset selection *)

Lemma asset_name_url_fields (a : pyval) (name url : string) :
  asset_name_url a = Some (name, url) ->
  exists entries, a = PDict entries
    /\ dict_get entries "name" = Some (PStr name)
    /\ dict_get entries "browser_download_url" = Some (PStr url).
Proof.
  destruct a as [| | | | |entries]; try discriminate. simpl.
  destruct (dict_get entries "name") as [[| | |s| |]|] eqn:Hname; try discriminate.
  destruct (dict_get entries "browser_download_url") as [[| | |u| |]|] eqn:Hurl;
    try discriminate.
  intros [= -> ->]. by exists entries.
Qed.

Lemma asset_name_field (a : pyval) (name : string) :
  asset_name a = Some name ->
  exists entries, a = PDict entries /\ dict_get entries "name" = Some (PStr name).
Proof.
  destruct a as [| | | | |entries]; try discriminate. simpl.
  destruct (dict_get entries "name") as [[| | |s| |]|] eqn:Hname; try discriminate.
  intros [= ->]. by exists entries.
Qed.

(** On assets of the documented shape the loop never raises and leaves
    the state alone. *)
Lemma scan_assets_well_formed (modName : string) (assets : list pyval)
  (recs : list (string * string)) :
  Forall2 (fun a r => asset_name_url a = Some r) assets recs ->
  forall cur st,
    scan_assets modName assets cur st = (Ok (scan_result modName recs cur), st).
Proof.
  induction 1 as [|a [name url] assets recs Ha _ IH]; intros cur st; [reflexivity|].
  apply asset_name_url_fields in Ha as (entries & -> & Hname & Hurl).
  simpl. unfold bind, getitem. rewrite Hname. simpl.
  destruct (isExactAssetName modName name || isAssetNameWithVersion modName name) eqn:Hflags.
  - rewrite Hurl. simpl. apply IH.
  - simpl. apply IH.
Qed.

(** Assets that have a name which does not match are passed over,
    whatever else they hold. *)
Lemma scan_assets_no_match (modName : string) (assets : list pyval) :
  Forall (fun a => exists name, asset_name a = Some name /\ ~ name_matches modName name) assets ->
  forall cur st, scan_assets modName assets cur st = (Ok cur, st).
Proof.
  induction 1 as [|a assets (name & Ha & Hno) _ IH]; intros cur st; [reflexivity|].
  apply asset_name_field in Ha as (entries & -> & Hname).
  simpl. unfold bind, getitem. rewrite Hname. simpl.
  rewrite (flags_false _ _ Hno). simpl. apply IH.
Qed.

Lemma scan_result_no_match (modName : string) (recs : list (string * string)) (cur : pyval) :
  Forall (fun r => ~ name_matches modName r.1) recs ->
  scan_result modName recs cur = cur.
Proof.
  intros Hno. revert cur. unfold scan_result.
  induction Hno as [|r recs Hr _ IH]; intros cur; [reflexivity|].
  simpl. rewrite (flags_false _ _ Hr). apply IH.
Qed.

Lemma scan_result_last_match (modName : string) (pre post : list (string * string))
  (name url : string) (cur : pyval) :
  name_matches modName name ->
  Forall (fun r => ~ name_matches modName r.1) post ->
  scan_result modName (pre ++ (name, url) :: post) cur = PStr url.
Proof.
  intros Hyes Hno. unfold scan_result. rewrite fold_left_app. simpl.
  apply flags_spec in Hyes. rewrite Hyes.
  by apply scan_result_no_match.
Qed.

(** Every list of assets either has no match or has a last match. *)
Lemma last_match_cases (modName : string) (recs : list (string * string)) :
  Forall (fun r => ~ name_matches modName r.1) recs
  \/ exists pre name url post,
       recs = pre ++ (name, url) :: post
       /\ name_matches modName name
       /\ Forall (fun r => ~ name_matches modName r.1) post.
Proof.
  induction recs as [|[name url] recs IH]; [by left|].
  destruct IH as [Hnone|(pre & n & u & post & -> & Hn & Hpost)].
  - destruct (isExactAssetName modName name || isAssetNameWithVersion modName name) eqn:Hflags.
    + right. exists [], name, url, recs. split; [done|]. split; [|done].
      by apply flags_spec.
    + left. constructor; [|done]. simpl. rewrite <- flags_spec. by rewrite Hflags.
  - right. exists ((name, url) :: pre), n, u, post. by split.
Qed.

(** The loop on the example of the specification keeps the second URL. *)
Example scan_foo_assets :
  scan_assets "Foo" foo_assets PNone (start None) = (Ok (PStr "https://dl/2"), start None).
Proof. reflexivity. Qed.

(** C1: on a release whose assets have the documented shape, the
    resolver passes to the installer the download URL of the last asset,
    in listing order, whose name is "<modName>.zip" or starts with
    "<modName>." and ends with ".zip"; it installs nothing exactly when
    no asset has such a name; and one of the two is always the case. *)
Theorem resolver_installs_last_matching_asset
  (w : World) (repr : pyval -> string) (modName : string) (modRepo : pyval) (st : State)
  (entries : list (pyval * pyval)) (assets : list pyval) (recs : list (string * string)) :
  urlopen w (clock st) (releaseUrl repr modRepo) = RespJSON (PDict entries) ->
  dict_get entries "assets" = Some (PList assets) ->
  Forall2 (fun a r => asset_name_url a = Some r) assets recs ->
  let queried := advance st 1 [EvUrlOpen (releaseUrl repr modRepo)] in
  (forall pre name url post,
      recs = pre ++ (name, url) :: post ->
      name_matches modName name ->
      Forall (fun r => ~ name_matches modName r.1) post ->
      installLatestGitHubRelease w repr modName modRepo st
      = installFromZipUrl w modName (PStr url) queried)
  /\ (Forall (fun r => ~ name_matches modName r.1) recs ->
      installLatestGitHubRelease w repr modName modRepo st
      = log modName "Assets do not contain expected zip file." queried)
  /\ (Forall (fun r => ~ name_matches modName r.1) recs
      \/ exists pre name url post,
           recs = pre ++ (name, url) :: post
           /\ name_matches modName name
           /\ Forall (fun r => ~ name_matches modName r.1) post).
Proof.
  intros Hresp Hassets Hshape queried.
  assert (Hrun : installLatestGitHubRelease w repr modName modRepo st
                 = (let url := scan_result modName recs PNone in
                    if is_None url
                    then log modName "Assets do not contain expected zip file." queried
                    else installFromZipUrl w modName url queried)).
  { unfold installLatestGitHubRelease, call_urlopen, try_except, bind, emit, tick.
    simpl. rewrite Hresp. simpl. rewrite Hassets. simpl.
    rewrite (scan_assets_well_formed modName assets recs Hshape).
    unfold queried, advance. simpl.
    by destruct (is_None (scan_result modName recs PNone)). }
  split; [|split].
  - intros pre name url post -> Hyes Hno. rewrite Hrun.
    by rewrite (scan_result_last_match modName pre post name url PNone Hyes Hno).
  - intros Hno. rewrite Hrun. by rewrite (scan_result_no_match modName recs PNone Hno).
  - apply last_match_cases.
Qed.

(** The example of the specification: of "Foo.zip", "Foo.2.1.0.zip" and
    "Bar.zip" the second is installed for the mod "Foo". *)
Lemma resolver_installs_last_matching_asset_witness :
  Forall2 (fun a r => asset_name_url a = Some r) foo_assets foo_recs
  /\ installLatestGitHubRelease world_foo no_repr "Foo" (PStr "owner/Foo") (start None)
     = installFromZipUrl world_foo "Foo" (PStr "https://dl/2")
         (advance (start None) 1
            [EvUrlOpen "https://api.github.com/repos/owner/Foo/releases/latest"]).
Proof.
  assert (Hshape : Forall2 (fun a r => asset_name_url a = Some r) foo_assets foo_recs).
  { repeat constructor. }
  split; [exact Hshape|].
  refine (proj1 (resolver_installs_last_matching_asset world_foo no_repr "Foo"
                   (PStr "owner/Foo") (start None) _ foo_assets foo_recs
                   eq_refl eq_refl Hshape)
            [("Foo.zip", "https://dl/1")] "Foo.2.1.0.zip" "https://dl/2"
            [("Bar.zip", "https://dl/3")] eq_refl _ _).
  - apply flags_spec. reflexivity.
  - repeat constructor. intros Hbar%flags_spec. discriminate Hbar.
Defined.

(** C8: when the release lists assets and none of their names matches
    the naming rules, the resolver logs that the expected zip file is not
    among the assets and returns: the only other thing it has done is the
    release query, so the installer was not called and the managed
    directory is as it was. *)
Theorem no_matching_asset_installs_nothing
  (w : World) (repr : pyval -> string) (modName : string) (modRepo : pyval) (st : State)
  (entries : list (pyval * pyval)) (assets : list pyval) :
  urlopen w (clock st) (releaseUrl repr modRepo) = RespJSON (PDict entries) ->
  dict_get entries "assets" = Some (PList assets) ->
  Forall (fun a => exists name, asset_name a = Some name /\ ~ name_matches modName name)
    assets ->
  installLatestGitHubRelease w repr modName modRepo st
  = (Ok tt,
     advance st 1
       [ EvUrlOpen (releaseUrl repr modRepo);
         EvPrint (log_line modName "Assets do not contain expected zip file.") ]).
Proof.
  intros Hresp Hassets Hno.
  unfold installLatestGitHubRelease, call_urlopen, try_except, bind, emit, tick.
  simpl. rewrite Hresp. simpl. rewrite Hassets. simpl.
  rewrite (scan_assets_no_match modName assets Hno). simpl.
  unfold log, print, emit, advance. simpl. by rewrite <- app_assoc.
Qed.

(** The same release has nothing for a mod "Baz"; what is in the managed
    directory stays. *)
Lemma no_matching_asset_installs_nothing_witness :
  Forall (fun a => exists name, asset_name a = Some name /\ ~ name_matches "Baz" name)
    foo_assets
  /\ installLatestGitHubRelease world_foo no_repr "Baz" (PStr "owner/Baz")
       (start (Some {[ ("Old", "old.dll") := "stale" ]}))
     = (Ok tt,
        {| clock := 1;
           mods_dir := Some {[ ("Old", "old.dll") := "stale" ]};
           trace := [ EvUrlOpen "https://api.github.com/repos/owner/Baz/releases/latest";
                      EvPrint "[Baz]: Assets do not contain expected zip file." ] |}).
Proof.
  assert (Hno : Forall (fun a => exists name, asset_name a = Some name
                                  /\ ~ name_matches "Baz" name) foo_assets).
  { repeat constructor; eexists; (split; [reflexivity|]);
      intros Hm%flags_spec; discriminate Hm. }
  split; [exact Hno|].
  exact (no_matching_asset_installs_nothing world_foo no_repr "Baz" (PStr "owner/Baz")
           (start (Some {[ ("Old", "old.dll") := "stale" ]})) _ foo_assets
           eq_refl eq_refl Hno).
Defined.

(** ** Effects of the pieces *)

Lemma pure_getitem (v : pyval) (k : string) : pure (getitem v k).
Proof.
  intros st. destruct v as [| | | | |entries]; try by eexists.
  simpl. destruct (dict_get entries k); by eexists.
Qed.

Lemma pure_asset_name_flags (modName : string) (name : pyval) :
  pure (asset_name_flags modName name).
Proof. intros st. destruct name; by eexists. Qed.




(** An asset with nothing under "name" makes the loop raise. *)
Lemma scan_assets_nameless (modName : string) (assets : list pyval) (a : pyval) :
  a ∈ assets -> lacks_key a "name" ->
  forall cur st, exists e, scan_assets modName assets cur st = (Raise e, st).
Proof.
  intros Hin Hlacks. induction assets as [|a0 assets IH]; intros cur st.
  { by apply elem_of_nil in Hin. }
  apply elem_of_cons in Hin as [<-|Hin].
  - simpl. unfold bind.
    destruct a as [| | | | |entries]; try by eexists.
    simpl in Hlacks. simpl. rewrite Hlacks. by eexists.
  - simpl. unfold bind.
    destruct (pure_getitem a0 "name" st) as [[name|e] ->]; [|by eexists].
    destruct (pure_asset_name_flags modName name st) as [[flags|e] ->]; [|by eexists].
    assert (Hurl : pure (if flags.1 || flags.2
                         then getitem a0 "browser_download_url" else ret cur)).
    { destruct (flags.1 || flags.2); [apply pure_getitem | by eexists]. }
    destruct (Hurl st) as [[url|e] ->]; [|by eexists].
    by apply IH.
Qed.

Lemma dict_get_key (entries : list (pyval * pyval)) (k : string) (v : pyval) :
  dict_get entries k = Some v -> PStr k ∈ map fst entries.
Proof.
  induction entries as [|[k' v'] entries IH]; [discriminate|]. simpl.
  destruct k' as [| | |s| |]; try (intros Hget; apply elem_of_cons; right; by apply IH).
  destruct (String.eqb_spec s k) as [->|_].
  - intros _. apply elem_of_cons. by left.
  - intros Hget. apply elem_of_cons. right. by apply IH.
Qed.


Lemma getitem_found (entries : list (pyval * pyval)) (k : string) (v : pyval) (st : State) :
  dict_get entries k = Some v -> getitem (PDict entries) k st = (Ok v, st).
Proof. intros Hk. simpl. by rewrite Hk. Qed.

(** A loop whose body raises at one of its items raises. *)
Lemma for_each_raises {A} (l : list A) (body : A -> M unit) (x : A) :
  x ∈ l ->
  (forall st, exists e st', body x st = (Raise e, st')) ->
  forall st, exists e st', for_each l body st = (Raise e, st').
Proof.
  intros Hin Hx. induction l as [|y l IH]; intros st.
  { by apply elem_of_nil in Hin. }
  simpl. unfold bind. apply elem_of_cons in Hin as [<-|Hin].
  - destruct (Hx st) as (e & st' & ->). by eexists _, _.
  - destruct (body y st) as [[[]|e] st1]; [by apply IH | by eexists _, _].
Qed.

(** ** Lists of names *)

Lemma str_items_strs (names : list string) : str_items (map PStr names) = Some names.
Proof. induction names as [|n names IH]; [done|]. simpl. by rewrite IH. Qed.

Lemma str_items_inv (l : list pyval) (names : list string) :
  str_items l = Some names -> l = map PStr names.
Proof.
  revert names. induction l as [|[| | |s| |] l IH]; intros names; simpl; try discriminate.
  - by intros [= <-].
  - destruct (str_items l) as [rest|]; [|discriminate].
    intros [= <-]. simpl. by rewrite (IH rest).
Qed.

Lemma str_items_app_None (l1 l2 : list pyval) :
  str_items l1 = None \/ str_items l2 = None -> str_items (l1 ++ l2) = None.
Proof.
  induction l1 as [|[| | |s| |] l1 IH]; simpl; try done.
  - by intros [|].
  - intros Hnone. destruct (str_items l1) as [rest|] eqn:Hrest.
    + destruct Hnone as [|Hnone]; [done|]. by rewrite IH; [|right].
    + by rewrite IH; [|left].
Qed.

Lemma elem_of_strs (names : list string) (k : string) :
  PStr k ∈ map PStr names -> k ∈ names.
Proof.
  induction names as [|n names IH]; simpl; intros Hin.
  { by apply elem_of_nil in Hin. }
  apply elem_of_cons in Hin as [[= ->]|Hin]; apply elem_of_cons; [by left|].
  right. by apply IH.
Qed.


Lemma for_each_strs (names : list string) (body : pyval -> M unit) (st : State) :
  for_each (map PStr names) body st = for_each names (fun name => body (PStr name)) st.
Proof.
  revert st. induction names as [|n names IH]; intros st; [done|].
  simpl. unfold bind. destruct (body (PStr n) st) as [[[]|e] st1]; [apply IH | done].
Qed.

(** ** The Sync Orchestrator: how a run is laid out *)

Lemma manifest_mappings_inv (mf : manifest_file) (config : pyval)
  (releaseMods mirrorMods : list (pyval * pyval)) :
  manifest_mappings mf = Some (config, releaseMods, mirrorMods) ->
  exists cfg,
    mf = ManifestDoc (PDict cfg)
    /\ config = PDict cfg
    /\ dict_get cfg "githubReleaseMods" = Some (PDict releaseMods)
    /\ dict_get cfg "mirrorMods" = Some (PDict mirrorMods).
Proof.
  unfold manifest_mappings.
  destruct mf as [| |[| | | | |cfg]]; try discriminate.
  destruct (dict_get cfg "githubReleaseMods") as [[| | | | |rel]|] eqn:Hrel;
    try discriminate.
  destruct (dict_get cfg "mirrorMods") as [[| | | | |mir]|] eqn:Hmir; try discriminate.
  intros [= <- <- <-]. by exists cfg.
Qed.

Lemma usable_manifest_inv (mf : manifest_file) (config : pyval)
  (releaseNames mirrorNames : list string) :
  usable_manifest mf = Some (config, releaseNames, mirrorNames) ->
  exists releaseMods mirrorMods,
    manifest_mappings mf = Some (config, releaseMods, mirrorMods)
    /\ map fst releaseMods = map PStr releaseNames
    /\ map fst mirrorMods = map PStr mirrorNames.
Proof.
  unfold usable_manifest.
  destruct (manifest_mappings mf) as [[[c rel] mir]|]; [|discriminate].
  destruct (str_items (map fst rel)) as [rn|] eqn:Hrn; [|discriminate].
  destruct (str_items (map fst mir)) as [mn|] eqn:Hmn; [|discriminate].
  intros [= <- <- <-]. exists rel, mir.
  split; [done|]. split; by apply str_items_inv.
Qed.

(** With a usable manifest, [main] prints its line, resets the managed
    directory and then runs the two install loops. *)
Lemma main_usable (w : World) (repr : pyval -> string) (st : State)
  (config : pyval) (releaseNames mirrorNames : list string) :
  usable_manifest (manifest w) = Some (config, releaseNames, mirrorNames) ->
  main w repr st
  = install_mods w repr config (after_reset st (detect_line releaseNames mirrorNames)).
Proof.
  intros (rel & mir & Hm & Hrel & Hmir)%usable_manifest_inv.
  apply manifest_mappings_inv in Hm as (cfg & Hmf & -> & Hgh & Hmm).
  unfold main, loadConfig. rewrite Hmf.
  unfold bind at 1. unfold ret at 1. cbv beta iota.
  unfold bind at 1. rewrite (getitem_found _ _ _ st Hgh).
  unfold bind at 1. simpl keys. unfold ret at 1. cbv beta iota.
  unfold bind at 1. rewrite (getitem_found _ _ _ st Hmm).
  unfold bind at 1. simpl keys. unfold ret at 1. cbv beta iota zeta.
  unfold bind at 1, join_values.
  rewrite Hrel, Hmir, <- map_app, str_items_strs.
  unfold ret at 1. cbv beta iota.
  unfold bind at 1, print, emit. cbv beta iota.
  unfold bind at 1, reset_mods_dir, bind, get_mods_dir, set_mods_dir, emit, ret.
  unfold after_reset, detect_line.
  destruct (mods_dir st); simpl; rewrite <- ?app_assoc; reflexivity.
Qed.

(** Without one, [main] raises at once. *)
Lemma main_unusable (w : World) (repr : pyval -> string) (st : State) :
  usable_manifest (manifest w) = None ->
  exists e, main w repr st = (Raise e, st).
Proof.
  unfold usable_manifest. intros Hnone.
  destruct (manifest_mappings (manifest w)) as [[[config rel] mir]|] eqn:Hm.
  - apply manifest_mappings_inv in Hm as (cfg & Hmf & -> & Hgh & Hmm).
    exists TypeError.
    unfold main, loadConfig. rewrite Hmf.
    unfold bind at 1. unfold ret at 1. cbv beta iota.
    unfold bind at 1. rewrite (getitem_found _ _ _ st Hgh).
    unfold bind at 1. simpl keys. unfold ret at 1. cbv beta iota.
    unfold bind at 1. rewrite (getitem_found _ _ _ st Hmm).
    unfold bind at 1. simpl keys. unfold ret at 1. cbv beta iota zeta.
    unfold bind at 1, join_values.
    rewrite str_items_app_None; [done|].
    destruct (str_items (map fst rel)); [|by left].
    destruct (str_items (map fst mir)); [discriminate | by right].
  - clear Hnone. revert Hm. unfold manifest_mappings, main, loadConfig, bind.
    intros Hm.
    destruct (manifest w) as [| |[| | | | |cfg]]; try by eexists.
    simpl.
    destruct (dict_get cfg "githubReleaseMods") as [[| | | | |rel]|]; try by eexists.
    simpl.
    destruct (dict_get cfg "mirrorMods") as [[| | | | |mir]|];
      first [discriminate Hm | by eexists].
Qed.

(** With a usable manifest the install part of [main] is its first
    loop followed, if that returns, by its second; the mod names are
    strings. *)
Lemma install_mods_loops (w : World) (repr : pyval -> string)
  (cfg releaseMods mirrorMods : list (pyval * pyval))
  (releaseNames mirrorNames : list string) (st : State) :
  dict_get cfg "githubReleaseMods" = Some (PDict releaseMods) ->
  dict_get cfg "mirrorMods" = Some (PDict mirrorMods) ->
  map fst releaseMods = map PStr releaseNames ->
  map fst mirrorMods = map PStr mirrorNames ->
  install_mods w repr (PDict cfg) st
  = match for_each releaseNames
            (fun name => release_loop_body w repr (PDict cfg) (PStr name)) st with
    | (Ok _, st1) =>
        for_each mirrorNames (fun name => mirror_loop_body w (PDict cfg) (PStr name)) st1
    | (Raise e, st1) => (Raise e, st1)
    end.
Proof.
  intros Hgh Hmm Hrel Hmir.
  unfold install_mods. unfold bind at 1. rewrite (getitem_found _ _ _ st Hgh).
  unfold bind at 1. simpl iterate. unfold ret at 1. cbv beta iota.
  unfold bind at 1. rewrite Hrel, for_each_strs.
  destruct (for_each releaseNames _ st) as [[[]|e] st1]; [|reflexivity].
  unfold bind at 1. rewrite (getitem_found _ _ _ st1 Hmm).
  unfold bind at 1. simpl iterate. unfold ret at 1. cbv beta iota.
  rewrite Hmir. apply for_each_strs.
Qed.

(** ** The Release Resolver: answers it cannot read *)

Lemma bad_release_raises (w : World) (repr : pyval -> string) (modName : string)
  (modRepo : pyval) (st : State) :
  bad_release (urlopen w (clock st) (releaseUrl repr modRepo)) ->
  exists e, installLatestGitHubRelease w repr modName modRepo st
            = (Raise e, advance st 1 [EvUrlOpen (releaseUrl repr modRepo)]).
Proof.
  intros Hbad.
  unfold installLatestGitHubRelease, call_urlopen, try_except, bind, emit, tick, advance.
  simpl. destruct (urlopen w (clock st) (releaseUrl repr modRepo)) as [e| |doc];
    [done | by eexists |].
  simpl. destruct Hbad as [Hlacks|(entries & assets & -> & Hassets & a & Hin & Hlacks)].
  - destruct doc as [| | | | |entries]; try by eexists.
    simpl in Hlacks. simpl. rewrite Hlacks. by eexists.
  - simpl. rewrite Hassets. simpl.
    match goal with |- context [scan_assets modName assets PNone ?s] =>
      destruct (scan_assets_nameless modName assets a Hin Hlacks PNone s) as [e ->]
    end.
    by eexists.
Qed.

(** C10: when the release query of a mod of the manifest is answered
    without an HTTP error, but the body is not JSON, or the document
    lacks "assets", or an asset lacks "name", the resolver raises an
    exception having logged nothing (all it has done is the query), and
    that ends the whole run: [main] raises and the exit status is not
    zero. *)
Theorem unreadable_release_is_fatal
  (w : World) (repr : pyval -> string) (config : pyval)
  (releaseMods mirrorMods : list (pyval * pyval)) (modName : string) (modRepo : pyval) :
  manifest_mappings (manifest w) = Some (config, releaseMods, mirrorMods) ->
  dict_get releaseMods modName = Some modRepo ->
  (forall t, bad_release (urlopen w t (releaseUrl repr modRepo))) ->
  (forall st, exists e,
      installLatestGitHubRelease w repr modName modRepo st
      = (Raise e, advance st 1 [EvUrlOpen (releaseUrl repr modRepo)]))
  /\ (forall st, exists e st', main w repr st = (Raise e, st'))
  /\ (forall d, exit_status w repr d <> 0%Z).
Proof.
  intros Hm Hrepo Hbad.
  assert (Hresolver : forall st, exists e,
             installLatestGitHubRelease w repr modName modRepo st
             = (Raise e, advance st 1 [EvUrlOpen (releaseUrl repr modRepo)])).
  { intros st. apply bad_release_raises, Hbad. }
  assert (Hmain : forall st, exists e st', main w repr st = (Raise e, st')).
  { intros st.
    destruct (usable_manifest (manifest w)) as [[[config' rn] mn]|] eqn:Husable.
    - rewrite (main_usable w repr st _ _ _ Husable).
      apply usable_manifest_inv in Husable as (rel & mir & Hm' & Hrel & Hmir).
      rewrite Hm in Hm'. injection Hm' as <- <- <-.
      apply manifest_mappings_inv in Hm as (cfg & _ & -> & Hgh & Hmm).
      rewrite (install_mods_loops w repr cfg _ _ rn mn _ Hgh Hmm Hrel Hmir).
      match goal with |- context [for_each rn ?body ?s] =>
        destruct (for_each_raises rn body modName) with (st := s) as (e & st' & ->)
      end.
      + apply elem_of_strs. rewrite <- Hrel. by apply dict_get_key in Hrepo.
      + intros st0. unfold release_loop_body.
        unfold bind at 1. rewrite (getitem_found _ _ _ st0 Hgh).
        unfold bind at 1. rewrite (getitem_found _ _ _ st0 Hrepo).
        destruct (Hresolver st0) as [e ->]. by eexists _, _.
      + by eexists _, _.
    - destruct (main_unusable w repr st Husable) as [e He]. by eexists _, _. }
  split; [exact Hresolver|]. split; [exact Hmain|].
  intros d. unfold exit_status. by destruct (Hmain (start d)) as (e & st' & ->).
Qed.

(** A release whose only asset has a download URL and no name. *)
Lemma unreadable_release_is_fatal_witness :
  (forall t, bad_release (urlopen world_nameless_asset t
                            (releaseUrl no_repr (PStr "owner/Foo"))))
  /\ (exists e, installLatestGitHubRelease world_nameless_asset no_repr "Foo"
                  (PStr "owner/Foo") (start None)
                = (Raise e,
                   advance (start None) 1
                     [EvUrlOpen "https://api.github.com/repos/owner/Foo/releases/latest"]))
  /\ exit_status world_nameless_asset no_repr None <> 0%Z.
Proof.
  assert (Hbad : forall t, bad_release (urlopen world_nameless_asset t
                                          (releaseUrl no_repr (PStr "owner/Foo")))).
  { intros t. right. eexists _, _. split; [reflexivity|]. split; [reflexivity|].
    eexists. split; [apply elem_of_cons; by left | reflexivity]. }
  split; [exact Hbad|].
  destruct (unreadable_release_is_fatal world_nameless_asset no_repr _ _ _
              "Foo" (PStr "owner/Foo") eq_refl eq_refl Hbad) as (Hresolver & _ & Hexit).
  split; [apply (Hresolver (start None)) | apply (Hexit None)].
Defined.

(** ** Transport errors *)

(** What the resolver does with an HTTP error status: one query, one
    log line that depends on the status, no install. *)
Lemma release_http_error_is_logged (w : World) (repr : pyval -> string)
  (modName : string) (modRepo : pyval) (code : Z) (st : State) :
  urlopen w (clock st) (releaseUrl repr modRepo) = RespRaise (HTTPError code) ->
  installLatestGitHubRelease w repr modName modRepo st
  = (Ok tt,
     advance st 1
       [ EvUrlOpen (releaseUrl repr modRepo);
         EvPrint (log_line modName
                    (if (code =? 404)%Z
                     then "Repo is no longer hosting releases."
                     else "Unable to reach GitHub")) ]).
Proof.
  intros Hresp. run_script. rewrite Hresp. simpl.
  destruct (Z.eqb_spec code 404) as [->|Hne].
  - simpl. by rewrite <- app_assoc.
  - assert (Hlog : (match code with
                    | 404%Z => emit (EvPrint (log_line modName "Repo is no longer hosting releases."))
                    | _ => emit (EvPrint (log_line modName "Unable to reach GitHub"))
                    end) = emit (EvPrint (log_line modName "Unable to reach GitHub"))).
    { destruct code as [|p|p]; try reflexivity.
      repeat (destruct p as [p|p|]; try reflexivity). by destruct Hne. }
    unfold log_line, emit in Hlog. rewrite Hlog. simpl. by rewrite <- app_assoc.
Qed.


(** The same for the release query. *)
Lemma release_other_error_propagates (w : World) (repr : pyval -> string)
  (modName : string) (modRepo : pyval) (e : exn) (st : State) :
  urlopen w (clock st) (releaseUrl repr modRepo) = RespRaise e ->
  is_HTTPError e = false ->
  installLatestGitHubRelease w repr modName modRepo st
  = (Raise e, advance st 1 [EvUrlOpen (releaseUrl repr modRepo)]).
Proof.
  intros Hresp Hother. run_script. rewrite Hresp. simpl. by rewrite Hother.
Qed.

(** C2, at a failing input: with two mirror mods and an unreachable
    host, the download of the first raises [URLError]; no failure is
    logged, the exception leaves [main], the process ends with status 1
    and the second mod is never looked at. *)
Theorem unreachable_mirror_ends_the_run :
  main world_unreachable_mirror no_repr (start None)
  = (Raise URLError,
     {| clock := 1;
        mods_dir := Some ∅;
        trace := [ EvPrint "Detecting the following mods:  A, B";
                   EvMakeDirs;
                   EvPrint "[A]: Downloading mod...";
                   EvUrlRetrieve (PStr "https://mirror/A.zip") ] |})
  /\ exit_status world_unreachable_mirror no_repr None = 1%Z.
Proof. split; reflexivity. Qed.

(** C3, at a failing input: with two release mods and an unreachable
    host, the first release query raises [URLError]; nothing is logged,
    the exception leaves [main], the process ends with status 1 and the
    second mod is never looked at. *)
Theorem unreachable_github_ends_the_run :
  main world_unreachable_github no_repr (start None)
  = (Raise URLError,
     {| clock := 1;
        mods_dir := Some ∅;
        trace := [ EvPrint "Detecting the following mods:  A, B";
                   EvMakeDirs;
                   EvUrlOpen "https://api.github.com/repos/owner/A/releases/latest" ] |})
  /\ exit_status world_unreachable_github no_repr None = 1%Z.
Proof. split; reflexivity. Qed.

(** ** The Sync Orchestrator: the reset *)


(** A mod name that is not a string makes [join] raise: the run ends
    before the reset, like one without a manifest. *)
Example numeric_mod_name_is_fatal :
  usable_manifest (manifest world_numeric_name) = None
  /\ main world_numeric_name no_repr (start stale_dir) = (Raise TypeError, start stale_dir).
Proof. split; reflexivity. Qed.


(** ** Every mod is accounted for *)












(** * Further properties *)

(** ** An install whose download is an archive *)

(** The installer on a download that is a zip archive, whatever its
    extraction does. *)
Lemma installFromZipUrl_zip (w : World) (modName url archive : string) (st : State) :
  urlretrieve w (clock st) url = DownBody (Zip archive) ->
  installFromZipUrl w modName (PStr url) st
  = (Ok tt,
     {| clock := S (clock st);
        mods_dir := (zip_extractall w (S (clock st)) archive modName (mods_dir st)).1;
        trace := trace st
                 ++ [ EvPrint (log_line modName "Downloading mod...");
                      EvUrlRetrieve (PStr url);
                      EvZipOpen modName;
                      EvExtractAll modName archive;
                      EvPrint (log_line modName
                                 match (zip_extractall w (S (clock st)) archive modName
                                          (mods_dir st)).2 with
                                 | None => "Installation complete."
                                 | Some _ => "Unable to extract mod zip"
                                 end) ] |}).
Proof.
  intros Hdown.
  unfold installFromZipUrl, call_urlretrieve, extract_zip, extractall, log, print,
    try_except, bind, ret, raise, emit, tick, get_clock, get_mods_dir, set_mods_dir.
  simpl. rewrite Hdown. simpl.
  destruct (zip_extractall w (S (clock st)) archive modName (mods_dir st)) as [d [e|]];
    simpl; by rewrite <- !app_assoc.
Qed.

(** X1: when the download is a zip archive and its extraction raises
    nothing, the installer returns normally after the one request; the
    managed directory is what the extraction made of it, and what was
    logged is the download line and the completion line, no failure. *)
Theorem clean_extraction_completes_install
  (w : World) (modName url archive : string) (st : State)
  (d : option (gmap (string * string) string)) :
  urlretrieve w (clock st) url = DownBody (Zip archive) ->
  zip_extractall w (S (clock st)) archive modName (mods_dir st) = (d, None) ->
  installFromZipUrl w modName (PStr url) st
  = (Ok tt,
     {| clock := S (clock st);
        mods_dir := d;
        trace := trace st
                 ++ [ EvPrint (log_line modName "Downloading mod...");
                      EvUrlRetrieve (PStr url);
                      EvZipOpen modName;
                      EvExtractAll modName archive;
                      EvPrint (log_line modName "Installation complete.") ] |}).
Proof.
  intros Hdown Hextract.
  rewrite (installFromZipUrl_zip w modName url archive st Hdown).
  by rewrite Hextract.
Qed.

(** The release archive of "Foo" in [world_foo], installed over a
    directory that a previous run left. *)
Lemma clean_extraction_completes_install_witness :
  urlretrieve world_foo 0 "https://dl/2" = DownBody (Zip "Foo 2.1.0")
  /\ installFromZipUrl world_foo "Foo" (PStr "https://dl/2") (start stale_dir)
     = (Ok tt,
        {| clock := 1;
           mods_dir := Some {[ ("Old", "old.dll") := "stale";
                               ("Foo", "Foo.dll") := "code";
                               ("Foo", "manifest.json") := "{}" ]};
           trace := [ EvPrint (log_line "Foo" "Downloading mod...");
                      EvUrlRetrieve (PStr "https://dl/2");
                      EvZipOpen "Foo";
                      EvExtractAll "Foo" "Foo 2.1.0";
                      EvPrint (log_line "Foo" "Installation complete.") ] |}).
Proof.
  split; [reflexivity|].
  refine (eq_trans
            (clean_extraction_completes_install world_foo "Foo" "https://dl/2"
               "Foo 2.1.0" (start stale_dir) _ eq_refl eq_refl) _).
  vm_compute. reflexivity.
Defined.

(** X2: when the extraction of the downloaded archive raises, the
    installer logs "Unable to extract mod zip" instead of the completion
    and returns normally; it does not clean up: the managed directory
    stays as the failed extraction left it. *)
Theorem failed_extraction_is_not_cleaned_up
  (w : World) (modName url archive : string) (st : State)
  (d : option (gmap (string * string) string)) (e : exn) :
  urlretrieve w (clock st) url = DownBody (Zip archive) ->
  zip_extractall w (S (clock st)) archive modName (mods_dir st) = (d, Some e) ->
  installFromZipUrl w modName (PStr url) st
  = (Ok tt,
     {| clock := S (clock st);
        mods_dir := d;
        trace := trace st
                 ++ [ EvPrint (log_line modName "Downloading mod...");
                      EvUrlRetrieve (PStr url);
                      EvZipOpen modName;
                      EvExtractAll modName archive;
                      EvPrint (log_line modName "Unable to extract mod zip") ] |}).
Proof.
  intros Hdown Hextract.
  rewrite (installFromZipUrl_zip w modName url archive st Hdown).
  by rewrite Hextract.
Qed.

(** An archive whose extraction fails after it has written a file. *)
Lemma failed_extraction_is_not_cleaned_up_witness :
  urlretrieve world_corrupt_member 0 "https://mirror/Foo.zip"
  = DownBody (Zip "bad second member")
  /\ installFromZipUrl world_corrupt_member "Foo" (PStr "https://mirror/Foo.zip")
       (start (Some ∅))
     = (Ok tt,
        {| clock := 1;
           mods_dir := Some {[ ("Foo", "Foo.dll") := "code" ]};
           trace := [ EvPrint (log_line "Foo" "Downloading mod...");
                      EvUrlRetrieve (PStr "https://mirror/Foo.zip");
                      EvZipOpen "Foo";
                      EvExtractAll "Foo" "bad second member";
                      EvPrint (log_line "Foo" "Unable to extract mod zip") ] |}).
Proof.
  split; [reflexivity|].
  refine (eq_trans
            (failed_extraction_is_not_cleaned_up world_corrupt_member "Foo"
               "https://mirror/Foo.zip" "bad second member" (start (Some ∅)) _ BadZipFile
               eq_refl eq_refl) _).
  vm_compute. reflexivity.
Defined.

(** ** When the installer raises *)

(** X5: the installer raises on a string URL only when the download
    itself raises an exception that is not an [HTTPError], and it raises
    that same exception; it has then made the one request and logged the
    download line, and nothing else: no failure line, no extraction.  In
    particular no failure of the extraction ever leaves the installer. *)
Theorem installer_raises_only_what_the_download_raises
  (w : World) (modName url : string) (e : exn) (st st' : State) :
  installFromZipUrl w modName (PStr url) st = (Raise e, st') ->
  urlretrieve w (clock st) url = DownRaise e
  /\ is_HTTPError e = false
  /\ st' = advance st 1
             [ EvPrint (log_line modName "Downloading mod..."); EvUrlRetrieve (PStr url) ].
Proof.
  unfold installFromZipUrl, call_urlretrieve, extract_zip, log, print, try_except,
    bind, ret, raise, emit, tick, advance. simpl.
  destruct (urlretrieve w (clock st) url) as [e0|[|archive]]; simpl.
  - destruct (is_HTTPError e0) eqn:Hhttp; simpl; [discriminate|].
    intros [= <- <-]. by rewrite <- app_assoc.
  - discriminate.
  - match goal with |- context [extractall w modName archive ?s] =>
      destruct (extractall w modName archive s) as [[[]|e1] st1]
    end; discriminate.
Qed.

(** The first mirror mod of [world_unreachable_mirror]. *)
Lemma installer_raises_only_what_the_download_raises_witness :
  installFromZipUrl world_unreachable_mirror "A" (PStr "https://mirror/A.zip") (start None)
  = (Raise URLError,
     advance (start None) 1
       [ EvPrint (log_line "A" "Downloading mod...");
         EvUrlRetrieve (PStr "https://mirror/A.zip") ])
  /\ urlretrieve world_unreachable_mirror 0 "https://mirror/A.zip" = DownRaise URLError
  /\ is_HTTPError URLError = false.
Proof.
  assert (Hrun : installFromZipUrl world_unreachable_mirror "A"
                   (PStr "https://mirror/A.zip") (start None)
                 = (Raise URLError,
                    advance (start None) 1
                      [ EvPrint (log_line "A" "Downloading mod...");
                        EvUrlRetrieve (PStr "https://mirror/A.zip") ])).
  { reflexivity. }
  split; [exact Hrun|].
  destruct (installer_raises_only_what_the_download_raises world_unreachable_mirror
              "A" "https://mirror/A.zip" URLError (start None) _ Hrun) as (Hdown & Hother & _).
  by split.
Defined.

(** ** A matching asset without a download URL *)

Lemma scan_assets_after_well_formed (modName : string) (assets later : list pyval)
  (recs : list (string * string)) :
  Forall2 (fun a r => asset_name_url a = Some r) assets recs ->
  forall cur st,
    scan_assets modName (assets ++ later) cur st
    = scan_assets modName later (scan_result modName recs cur) st.
Proof.
  induction 1 as [|a [name url] assets recs Ha _ IH]; intros cur st; [reflexivity|].
  apply asset_name_url_fields in Ha as (entries & -> & Hname & Hurl).
  simpl. unfold bind, getitem. rewrite Hname. simpl.
  destruct (isExactAssetName modName name || isAssetNameWithVersion modName name) eqn:Hflags.
  - rewrite Hurl. simpl. apply IH.
  - simpl. apply IH.
Qed.

(** X6: when the last asset whose name matches has [null] under
    "browser_download_url", the resolver treats the release as having no
    asset for the mod, also when an earlier asset matched and had a URL:
    it logs that the expected zip file is not among the assets and
    returns without calling the installer. *)
Theorem null_url_counts_as_no_asset
  (w : World) (repr : pyval -> string) (modName : string) (modRepo : pyval) (st : State)
  (entries fields : list (pyval * pyval)) (before after : list pyval)
  (recs : list (string * string)) (name : string) :
  urlopen w (clock st) (releaseUrl repr modRepo) = RespJSON (PDict entries) ->
  dict_get entries "assets" = Some (PList (before ++ PDict fields :: after)) ->
  Forall2 (fun a r => asset_name_url a = Some r) before recs ->
  dict_get fields "name" = Some (PStr name) ->
  name_matches modName name ->
  dict_get fields "browser_download_url" = Some PNone ->
  Forall (fun a => exists n, asset_name a = Some n /\ ~ name_matches modName n) after ->
  installLatestGitHubRelease w repr modName modRepo st
  = (Ok tt,
     advance st 1
       [ EvUrlOpen (releaseUrl repr modRepo);
         EvPrint (log_line modName "Assets do not contain expected zip file.") ]).
Proof.
  intros Hresp Hassets Hbefore Hname Hmatch Hurl Hafter.
  unfold installLatestGitHubRelease, call_urlopen, try_except, bind, emit, tick.
  simpl. rewrite Hresp. simpl. rewrite Hassets. simpl.
  rewrite (scan_assets_after_well_formed modName before _ recs Hbefore).
  simpl. unfold bind, getitem. rewrite Hname. simpl.
  apply flags_spec in Hmatch. rewrite Hmatch, Hurl. simpl.
  rewrite (scan_assets_no_match modName after Hafter). simpl.
  unfold log, print, emit, advance. simpl. by rewrite <- app_assoc.
Qed.

(** "Foo.zip" has a URL, the later "Foo.2.0.zip" has none: nothing is
    installed. *)
Lemma null_url_counts_as_no_asset_witness :
  name_matches "Foo" "Foo.2.0.zip"
  /\ installLatestGitHubRelease world_null_url no_repr "Foo" (PStr "owner/Foo") (start None)
     = (Ok tt,
        advance (start None) 1
          [ EvUrlOpen (releaseUrl no_repr (PStr "owner/Foo"));
            EvPrint (log_line "Foo" "Assets do not contain expected zip file.") ]).
Proof.
  assert (Hmatch : name_matches "Foo" "Foo.2.0.zip").
  { apply flags_spec. reflexivity. }
  split; [exact Hmatch|].
  refine (null_url_counts_as_no_asset world_null_url no_repr "Foo" (PStr "owner/Foo")
            (start None) _
            [item "name" (PStr "Foo.2.0.zip"); item "browser_download_url" PNone]
            [asset "Foo.zip" "https://dl/1"] [asset "Bar.zip" "https://dl/3"]
            [("Foo.zip", "https://dl/1")] "Foo.2.0.zip"
            eq_refl eq_refl _ eq_refl Hmatch eq_refl _).
  - repeat constructor.
  - repeat constructor. eexists. split; [reflexivity|].
    intros Hbar%flags_spec. discriminate Hbar.
Defined.

(** ** The two loops of a run *)





(** ** A run in which every request is refused *)




(** ** HTTP error statuses of the release query *)

(** X8: when the release query is answered with an HTTP error status,
    the resolver makes that one query and no other request, logs
    "Repo is no longer hosting releases." for status 404 and
    "Unable to reach GitHub" for every other status, and returns
    normally with the managed directory untouched. *)
Theorem release_http_status_is_logged
  (w : World) (repr : pyval -> string) (modName : string) (modRepo : pyval)
  (code : Z) (st : State) :
  urlopen w (clock st) (releaseUrl repr modRepo) = RespRaise (HTTPError code) ->
  (code = 404%Z ->
   installLatestGitHubRelease w repr modName modRepo st
   = (Ok tt,
      advance st 1
        [ EvUrlOpen (releaseUrl repr modRepo);
          EvPrint (log_line modName "Repo is no longer hosting releases.") ]))
  /\ (code <> 404%Z ->
      installLatestGitHubRelease w repr modName modRepo st
      = (Ok tt,
         advance st 1
           [ EvUrlOpen (releaseUrl repr modRepo);
             EvPrint (log_line modName "Unable to reach GitHub") ])).
Proof.
  intros Hresp.
  rewrite (release_http_error_is_logged w repr modName modRepo code st Hresp).
  split.
  - intros ->. reflexivity.
  - intros Hne. by destruct (Z.eqb_spec code 404).
Qed.

(** The release query of "Foo" refused with 403. *)
Lemma release_http_status_is_logged_witness :
  urlopen world_all_refused 0 (releaseUrl no_repr (PStr "owner/Foo"))
  = RespRaise (HTTPError 403)
  /\ installLatestGitHubRelease world_all_refused no_repr "Foo" (PStr "owner/Foo")
       (start None)
     = (Ok tt,
        advance (start None) 1
          [ EvUrlOpen (releaseUrl no_repr (PStr "owner/Foo"));
            EvPrint (log_line "Foo" "Unable to reach GitHub") ]).
Proof.
  split; [reflexivity|].
  apply (proj2 (release_http_status_is_logged world_all_refused no_repr "Foo"
                  (PStr "owner/Foo") 403 (start None) eq_refl)).
  discriminate.
Defined.

(** ** How many requests a run makes *)

















(** ** What the installer reports *)






(** ** From the release to the extraction *)

(** X11: resolver and installer together.  When the release lists
    assets of the documented shape, the last one whose name matches has
    the URL [url], the download of [url] is a zip archive and its
    extraction raises nothing, the resolver returns normally after two
    requests: it has queried the release, downloaded [url], extracted
    that archive under the name of the mod and logged the download and
    the completion, and the managed directory is what the extraction made
    of it. *)
Theorem release_install_extracts_chosen_asset
  (w : World) (repr : pyval -> string) (modName : string) (modRepo : pyval) (st : State)
  (entries : list (pyval * pyval)) (assets : list pyval)
  (pre post : list (string * string)) (name url archive : string)
  (d : option (gmap (string * string) string)) :
  urlopen w (clock st) (releaseUrl repr modRepo) = RespJSON (PDict entries) ->
  dict_get entries "assets" = Some (PList assets) ->
  Forall2 (fun a r => asset_name_url a = Some r) assets (pre ++ (name, url) :: post) ->
  name_matches modName name ->
  Forall (fun r => ~ name_matches modName r.1) post ->
  urlretrieve w (S (clock st)) url = DownBody (Zip archive) ->
  zip_extractall w (S (S (clock st))) archive modName (mods_dir st) = (d, None) ->
  installLatestGitHubRelease w repr modName modRepo st
  = (Ok tt,
     {| clock := S (S (clock st));
        mods_dir := d;
        trace := trace st
                 ++ [ EvUrlOpen (releaseUrl repr modRepo);
                      EvPrint (log_line modName "Downloading mod...");
                      EvUrlRetrieve (PStr url);
                      EvZipOpen modName;
                      EvExtractAll modName archive;
                      EvPrint (log_line modName "Installation complete.") ] |}).
Proof.
  intros Hresp Hassets Hshape Hmatch Hpost Hdown Hextract.
  unfold installLatestGitHubRelease, call_urlopen, try_except, bind, emit, tick.
  simpl. rewrite Hresp. simpl. rewrite Hassets. simpl.
  rewrite (scan_assets_well_formed modName assets _ Hshape).
  rewrite (scan_result_last_match modName pre post name url PNone Hmatch Hpost). simpl.
  match goal with |- context [installFromZipUrl w modName (PStr url) ?s] =>
    rewrite (installFromZipUrl_zip w modName url archive s Hdown)
  end.
  simpl. rewrite Hextract. simpl. by rewrite <- app_assoc.
Qed.

(** The release install of "Foo" in [world_foo]. *)
Lemma release_install_extracts_chosen_asset_witness :
  name_matches "Foo" "Foo.2.1.0.zip"
  /\ installLatestGitHubRelease world_foo no_repr "Foo" (PStr "owner/Foo") (start None)
     = (Ok tt,
        {| clock := 2;
           mods_dir := Some {[ ("Foo", "Foo.dll") := "code";
                               ("Foo", "manifest.json") := "{}" ]};
           trace := [ EvUrlOpen (releaseUrl no_repr (PStr "owner/Foo"));
                      EvPrint (log_line "Foo" "Downloading mod...");
                      EvUrlRetrieve (PStr "https://dl/2");
                      EvZipOpen "Foo";
                      EvExtractAll "Foo" "Foo 2.1.0";
                      EvPrint (log_line "Foo" "Installation complete.") ] |}).
Proof.
  assert (Hmatch : name_matches "Foo" "Foo.2.1.0.zip").
  { apply flags_spec. reflexivity. }
  split; [exact Hmatch|].
  refine (eq_trans
            (release_install_extracts_chosen_asset world_foo no_repr "Foo"
               (PStr "owner/Foo") (start None) _ foo_assets [("Foo.zip", "https://dl/1")]
               [("Bar.zip", "https://dl/3")] "Foo.2.1.0.zip" "https://dl/2" "Foo 2.1.0" _
               eq_refl eq_refl _ Hmatch _ eq_refl eq_refl) _).
  - repeat constructor.
  - repeat constructor. intros Hbar%flags_spec. discriminate Hbar.
  - vm_compute. reflexivity.
Defined.

(** ** Mod names that extend one another *)

(** X12: the naming rule does not tell a mod from a mod whose name
    extends its name after a dot: the asset that is exactly
    "<modName>.<suffix>.zip", the exact asset of a mod named
    "<modName>.<suffix>", passes the asset test of [modName] as well. *)
Theorem longer_mod_name_asset_is_accepted (modName suffix name : string) :
  isExactAssetName (modName +:+ "." +:+ suffix) name = true ->
  isExactAssetName modName name || isAssetNameWithVersion modName name = true.
Proof.
  intros Hexact%isExactAssetName_spec. unfold exact_name in Hexact. subst name.
  apply orb_true_iff. right. apply isAssetNameWithVersion_spec. split.
  - exists (suffix +:+ ".zip"). by rewrite !app_assoc_s.
  - by eexists.
Qed.

(** "Foo.Extra.zip" is the asset of "Foo.Extra" and passes for "Foo". *)
Lemma longer_mod_name_asset_is_accepted_witness :
  isExactAssetName ("Foo" +:+ "." +:+ "Extra") "Foo.Extra.zip" = true
  /\ isExactAssetName "Foo" "Foo.Extra.zip" || isAssetNameWithVersion "Foo" "Foo.Extra.zip"
     = true.
Proof.
  split; [reflexivity|].
  exact (longer_mod_name_asset_is_accepted "Foo" "Extra" "Foo.Extra.zip" eq_refl).
Defined.
